(** * Router logging configuration: [router/pkg/logging/logging.go]

    A shallow embedding of the logging package of the router.  The package
    is configuration glue over three libraries (the Go runtime, zap and
    lumberjack), so the development has one module per library, holding
    the part of that library the package calls, followed by the module
    [Logging] that transcribes the package itself, followed by the
    properties of the package.

    - Go values: [int64] and [zapcore.Level] are [Z]; a Go [string] is a
      sequence of bytes, hence a [String.string]; [float64] is an IEEE 754
      binary64 value of [SpecFloat.spec_float].
    - Effects: the operating system (host name, process id, file opening)
      is an explicit [OS] value handed to the functions that consult it. *)

From Stdlib Require Import ZArith Lia List Bool Ascii String.
From Stdlib Require Import Floats.SpecFloat.
Import ListNotations.

Open Scope bool_scope.
Open Scope string_scope.
Open Scope Z_scope.

(** ** Go numeric types *)

Module GoNum.

(** Two's complement wrap-around of [int64] arithmetic. *)
Definition wrap_int64 (z : Z) : Z := (z + 2 ^ 63) mod 2 ^ 64 - 2 ^ 63.

Definition MinInt64 : Z := - 2 ^ 63.
Definition MaxInt64 : Z := 2 ^ 63 - 1.

(** [float64]: binary64, 53 bits of precision, exponents up to 1024. *)
Definition prec : Z := 53.
Definition emax : Z := 1024.
Definition float64 : Type := spec_float.

(** The conversion [float64(n)] of an integer: the nearest binary64
    value, ties to even. *)
Definition float64_of_int (n : Z) : float64 := binary_normalize prec emax n 0 false.

(** The [/] of two [float64] operands. *)
Definition float64_div (x y : float64) : float64 := SFdiv prec emax x y.

(** The integer part of a finite float, as a signed integer. *)
Definition integer_part (s : bool) (m : positive) (e : Z) : Z :=
  cond_Zopp s (if 0 <=? e then Z.shiftl (Zpos m) e else Z.shiftr (Zpos m) (- e)).

(** [math.Trunc]: the integer value of the operand, zeros, infinities
    and NaN unchanged, the sign kept on a zero result. *)
Definition math_Trunc (x : float64) : float64 :=
  match x with
  | S754_finite s m e =>
      if 0 <=? e then x
      else binary_normalize prec emax (integer_part s m e) 0 s
  | _ => x
  end.

(** The conversion [int64(x)] of a float: the fraction is discarded.  A
    value that does not fit is implementation-specific in Go; amd64
    yields the minimal integer, which is what is written here. *)
Definition int64_of_float64 (x : float64) : Z :=
  match x with
  | S754_zero _ => 0
  | S754_finite s m e =>
      let v := integer_part s m e in
      if (MinInt64 <=? v) && (v <=? MaxInt64) then v else MinInt64
  | S754_infinity _ | S754_nan => MinInt64
  end.

End GoNum.

(** ** Package [time] *)

Module GoTime.
Import GoNum.

(** A [time.Time]: seconds and nanoseconds since the Unix epoch, and
    the offset (seconds east of UTC) of the location it is shown in. *)
Record Time : Type := mkTime {
  unixSec : Z;
  nsec : Z;
  zoneOffset : Z
}.

(** [time.Duration] constants, in nanoseconds. *)
Definition Nanosecond : Z := 1.
Definition Microsecond : Z := 1000 * Nanosecond.
Definition Millisecond : Z := 1000 * Microsecond.
Definition Second : Z := 1000 * Millisecond.

(** [t.UnixNano()], computed in [int64]. *)
Definition UnixNano (t : Time) : Z := wrap_int64 (unixSec t * 1000000000 + nsec t).

(** [t.IsZero()]: the instant is January 1 of year 1, 00:00:00 UTC,
    which lies [unixToInternal] seconds before the Unix epoch. *)
Definition unixToInternal : Z :=
  (1969 * 365 + 1969 / 4 - 1969 / 100 + 1969 / 400) * 86400.

Definition IsZero (t : Time) : bool :=
  (unixSec t + unixToInternal =? 0) && (nsec t =? 0).

(** [t.Clock()]: hour, minute and second of the day in [t]'s location. *)
Definition secondsOfDay (t : Time) : Z := (unixSec t + zoneOffset t) mod 86400.
Definition Hour (t : Time) : Z := secondsOfDay t / 3600.
Definition Minute (t : Time) : Z := (secondsOfDay t mod 3600) / 60.
Definition Sec (t : Time) : Z := secondsOfDay t mod 60.

(** The elements of a layout, as [nextStdChunk] tells them apart.  The
    clock verbs are rendered below; the date, zone and fraction verbs
    are recognised and not rendered. *)
Inductive Chunk : Type :=
| Lit (c : ascii)
| stdHour | stdHour12 | stdZeroHour12
| stdMinute | stdZeroMinute
| stdSecond | stdZeroSecond
| stdPM | stdpm
| stdOther.

(** The verb a layout starts with, and its length in bytes.  For the
    verbs that are not rendered the test is conservative: the first
    bytes of a date, zone or fraction verb are enough. *)
Definition stdAt (layout : string) : option (Chunk * nat) :=
  let starts p := prefix p layout in
  if starts "Jan" || starts "Mon" || starts "MST" then Some (stdOther, 3%nat)
  else if starts "002" then Some (stdOther, 3%nat)
  else if starts "01" then Some (stdOther, 2%nat)
  else if starts "02" then Some (stdOther, 2%nat)
  else if starts "03" then Some (stdZeroHour12, 2%nat)
  else if starts "04" then Some (stdZeroMinute, 2%nat)
  else if starts "05" then Some (stdZeroSecond, 2%nat)
  else if starts "06" then Some (stdOther, 2%nat)
  else if starts "15" then Some (stdHour, 2%nat)
  else if starts "1" then Some (stdOther, 1%nat)
  else if starts "2006" then Some (stdOther, 4%nat)
  else if starts "2" then Some (stdOther, 1%nat)
  else if starts "__2" then Some (stdOther, 3%nat)
  else if starts "_2006" then None
  else if starts "_2" then Some (stdOther, 2%nat)
  else if starts "3" then Some (stdHour12, 1%nat)
  else if starts "4" then Some (stdMinute, 1%nat)
  else if starts "5" then Some (stdSecond, 1%nat)
  else if starts "PM" then Some (stdPM, 2%nat)
  else if starts "pm" then Some (stdpm, 2%nat)
  else if starts "-07" || starts "Z07" then Some (stdOther, 3%nat)
  else if starts ".0" || starts ",0" || starts ".9" || starts ",9"
       then Some (stdOther, 2%nat)
  else None.

(** The layout cut into chunks, left to right; [skip] counts the bytes
    of the current verb still to pass over. *)
Fixpoint chunks (layout : string) (skip : nat) : list Chunk :=
  match layout with
  | EmptyString => []
  | String c rest =>
      match skip with
      | S k => chunks rest k
      | O =>
          match stdAt layout with
          | Some (ch, len) => ch :: chunks rest (Nat.pred len)
          | None => Lit c :: chunks rest 0
          end
      end
  end.

Definition digit (d : Z) : ascii := ascii_of_N (48 + Z.to_N d).

(** [appendInt] on the values of a clock (below 100): decimal, padded
    with zeros to [width]. *)
Definition appendInt (x : Z) (width : Z) : string :=
  if x <? 10
  then (if 2 <=? width then "0" else "") ++ String (digit x) ""
  else String (digit (x / 10)) (String (digit (x mod 10)) "").

Definition hour12 (t : Time) : Z :=
  let hr := Hour t mod 12 in if hr =? 0 then 12 else hr.

Definition render (ch : Chunk) (t : Time) : option string :=
  match ch with
  | Lit c => Some (String c "")
  | stdHour => Some (appendInt (Hour t) 2)
  | stdHour12 => Some (appendInt (hour12 t) 0)
  | stdZeroHour12 => Some (appendInt (hour12 t) 2)
  | stdMinute => Some (appendInt (Minute t) 0)
  | stdZeroMinute => Some (appendInt (Minute t) 2)
  | stdSecond => Some (appendInt (Sec t) 0)
  | stdZeroSecond => Some (appendInt (Sec t) 2)
  | stdPM => Some (if 12 <=? Hour t then "PM" else "AM")
  | stdpm => Some (if 12 <=? Hour t then "pm" else "am")
  | stdOther => None
  end.

Fixpoint renderAll (chs : list Chunk) (t : Time) : option string :=
  match chs with
  | [] => Some ""
  | ch :: rest =>
      match render ch t, renderAll rest t with
      | Some a, Some b => Some (a ++ b)
      | _, _ => None
      end
  end.

(** [t.Format(layout)]: the text before a verb is copied, the verb is
    rendered, and so on to the end of the layout.  [None] stands for a
    layout outside the rendered verbs. *)
Definition Format (t : Time) (layout : string) : option string :=
  renderAll (chunks layout 0) t.

End GoTime.

(** ** Packages [unicode], [unicode/utf8] and [strings] *)

Module GoStrings.

Definition byteOf (c : ascii) : Z := Z.of_N (N_of_ascii c).
Definition ofByte (b : Z) : ascii := ascii_of_N (Z.to_N (b mod 256)).

Fixpoint bytesOf (s : string) : list Z :=
  match s with
  | EmptyString => []
  | String c rest => byteOf c :: bytesOf rest
  end.

Fixpoint ofBytes (l : list Z) : string :=
  match l with
  | [] => EmptyString
  | b :: rest => String (ofByte b) (ofBytes rest)
  end.

(** *** [unicode/utf8] *)

Definition RuneError : Z := 65533.   (* U+FFFD *)
Definition RuneSelf : Z := 128.
Definition MaxRune : Z := 1114111.   (* U+10FFFF *)
Definition MaxASCII : Z := 127.

Definition inRange (lo hi b : Z) : bool := (lo <=? b) && (b <=? hi).
Definition cont (b : Z) : bool := inRange 128 191 b.

(** [utf8.DecodeRune]: the first rune of a byte sequence and its width;
    an ill-formed or truncated sequence gives [(RuneError, 1)], the
    empty sequence [(RuneError, 0)].  The range accepted for the second
    byte depends on the first one, as in the table [first]. *)
Definition DecodeRune (p : list Z) : Z * nat :=
  match p with
  | [] => (RuneError, 0%nat)
  | s0 :: p1 =>
      if s0 <? RuneSelf then (s0, 1%nat)
      else if inRange 194 223 s0 then
        match p1 with
        | s1 :: _ =>
            if cont s1
            then (Z.lor (Z.shiftl (Z.land s0 31) 6) (Z.land s1 63), 2%nat)
            else (RuneError, 1%nat)
        | _ => (RuneError, 1%nat)
        end
      else if inRange 224 239 s0 then
        match p1 with
        | s1 :: s2 :: _ =>
            let lo := if s0 =? 224 then 160 else 128 in
            let hi := if s0 =? 237 then 159 else 191 in
            if inRange lo hi s1 && cont s2
            then (Z.lor (Z.shiftl (Z.land s0 15) 12)
                    (Z.lor (Z.shiftl (Z.land s1 63) 6) (Z.land s2 63)), 3%nat)
            else (RuneError, 1%nat)
        | _ => (RuneError, 1%nat)
        end
      else if inRange 240 244 s0 then
        match p1 with
        | s1 :: s2 :: s3 :: _ =>
            let lo := if s0 =? 240 then 144 else 128 in
            let hi := if s0 =? 244 then 143 else 191 in
            if inRange lo hi s1 && cont s2 && cont s3
            then (Z.lor (Z.shiftl (Z.land s0 7) 18)
                    (Z.lor (Z.shiftl (Z.land s1 63) 12)
                       (Z.lor (Z.shiftl (Z.land s2 63) 6) (Z.land s3 63))), 4%nat)
            else (RuneError, 1%nat)
        | _ => (RuneError, 1%nat)
        end
      else (RuneError, 1%nat)
  end.

(** [utf8.AppendRune]: surrogates and values out of range are written
    as [RuneError]. *)
Definition EncodeRune (r : Z) : list Z :=
  if (0 <=? r) && (r <? 128) then [r]
  else if (0 <=? r) && (r <? 2048) then
    [Z.lor 192 (Z.shiftr r 6); Z.lor 128 (Z.land r 63)]
  else if (r <? 0) || (MaxRune <? r) || inRange 55296 57343 r then
    [239; 191; 189]
  else if r <? 65536 then
    [Z.lor 224 (Z.shiftr r 12); Z.lor 128 (Z.land (Z.shiftr r 6) 63);
     Z.lor 128 (Z.land r 63)]
  else
    [Z.lor 240 (Z.shiftr r 18); Z.lor 128 (Z.land (Z.shiftr r 12) 63);
     Z.lor 128 (Z.land (Z.shiftr r 6) 63); Z.lor 128 (Z.land r 63)].

(** The runes of a string, as [for _, c := range s] yields them. *)
Fixpoint runes (fuel : nat) (p : list Z) : list Z :=
  match fuel, p with
  | O, _ | _, [] => []
  | S fuel', _ :: _ =>
      let '(r, w) := DecodeRune p in
      r :: runes fuel' (skipn w p)
  end.

(** *** [unicode] *)

(** A [unicode.CaseRange]: the deltas to add to a code point of
    [Lo..Hi] to reach its upper, lower and title case. *)
Record CaseRange : Type := mkCaseRange {
  Lo : Z;
  Hi : Z;
  DeltaUpper : Z;
  DeltaLower : Z;
  DeltaTitle : Z
}.

(** The delta that marks an alternating upper/lower sequence. *)
Definition UpperLower : Z := MaxRune + 1.

(** [unicode.to] for the upper case: the range holding [r] decides.
    The ranges of a table are disjoint and sorted, so that the binary
    search of the library finds the first range that holds [r]. *)
Fixpoint toUpperCase (r : Z) (caseRange : list CaseRange) : Z :=
  match caseRange with
  | [] => r
  | cr :: rest =>
      if (Lo cr <=? r) && (r <=? Hi cr) then
        if MaxRune <? DeltaUpper cr
        then Lo cr + Z.ldiff (r - Lo cr) 1
        else r + DeltaUpper cr
      else toUpperCase r rest
  end.

Section CaseTables.

(** The table [unicode.CaseRanges] belongs to the Go distribution;
    the development is parametric in it. *)
Variable CaseRanges : list CaseRange.

(** [unicode.ToUpper] *)
Definition unicode_ToUpper (r : Z) : Z :=
  if r <=? MaxASCII then
    (if (97 <=? r) && (r <=? 122) then r - 32 else r)
  else toUpperCase r CaseRanges.

(** [strings.Map]: every rune of [s] is mapped and written back; a
    negative result is dropped, an ill-formed byte of [s] becomes
    [RuneError] first. *)
Definition Map (mapping : Z -> Z) (s : string) : string :=
  let p := bytesOf s in
  ofBytes (flat_map (fun c => let r := mapping c in
                              if r <? 0 then [] else EncodeRune r)
                    (runes (List.length p) p)).

Definition isASCII (s : string) : bool :=
  forallb (fun b => b <? RuneSelf) (bytesOf s).

Definition hasLower (s : string) : bool :=
  existsb (fun b => (97 <=? b) && (b <=? 122)) (bytesOf s).

Definition upperByte (b : Z) : Z :=
  if (97 <=? b) && (b <=? 122) then b - 32 else b.

(** [strings.ToUpper]: the bytes of an ASCII string are upper-cased
    in place; any other string goes through [Map]. *)
Definition ToUpper (s : string) : string :=
  if isASCII s then
    (if negb (hasLower s) then s
     else ofBytes (List.map upperByte (bytesOf s)))
  else Map unicode_ToUpper s.

End CaseTables.

(** The ranges of [unicode.CaseRanges] for U+0080 to U+017F (Latin-1
    Supplement and Latin Extended-A). *)
Definition CaseRanges_Latin : list CaseRange :=
  [ mkCaseRange 181 181 743 0 743;
    mkCaseRange 192 214 0 32 0;
    mkCaseRange 216 222 0 32 0;
    mkCaseRange 224 246 (-32) 0 (-32);
    mkCaseRange 248 254 (-32) 0 (-32);
    mkCaseRange 255 255 121 0 121;
    mkCaseRange 256 303 UpperLower UpperLower UpperLower;
    mkCaseRange 304 304 0 (-199) 0;
    mkCaseRange 305 305 (-232) 0 (-232);
    mkCaseRange 306 311 UpperLower UpperLower UpperLower;
    mkCaseRange 313 328 UpperLower UpperLower UpperLower;
    mkCaseRange 330 375 UpperLower UpperLower UpperLower;
    mkCaseRange 376 376 0 (-121) 0;
    mkCaseRange 377 382 UpperLower UpperLower UpperLower;
    mkCaseRange 383 383 (-300) 0 (-300) ].

End GoStrings.

(** ** The operating system *)

Module GoOS.

(** A Go [error], by its message. *)
Definition error : Type := string.

(** What the package and its libraries ask of the system: the result
    pair of [os.Hostname()], the value of [os.Getpid()], and whether
    opening (or creating) the file of a given name fails. *)
Record OS : Type := mkOS {
  Hostname : string * option error;
  Getpid : Z;
  OpenFile : string -> option error
}.

End GoOS.

(** ** Package [lumberjack] *)

Module Lumberjack.
Import GoOS.

(** A [lumberjack.Logger]: the configuration fields the package sets,
    and whether the file behind it is open ([file != nil]).  The package
    builds the value and never calls its methods; writing, opening and
    rotating are the library's and are not modelled. *)
Record Logger : Type := mkLogger {
  Filename : string;
  MaxSize : Z;
  isOpen : bool
}.

End Lumberjack.

(** ** Packages [zap] and [zapcore] *)

Module Zap.
Import GoNum GoTime GoOS.

(** [zapcore.Level], an [int8]. *)
Definition Level : Type := Z.
Definition DebugLevel : Level := -1.
Definition InfoLevel : Level := 0.
Definition WarnLevel : Level := 1.
Definition ErrorLevel : Level := 2.
Definition DPanicLevel : Level := 3.
Definition PanicLevel : Level := 4.
Definition FatalLevel : Level := 5.

(** [Level.Enabled]: a level as a [LevelEnabler] admits itself and
    everything above. *)
Definition Enabled (l lvl : Level) : bool := l <=? lvl.

Inductive FieldType : Type := StringType | Int64Type.

Record Field : Type := mkField {
  Key : string;
  Type_ : FieldType;
  Integer : Z;
  String_ : string
}.

Definition String (key val : string) : Field := mkField key StringType 0 val.
Definition Int64 (key : string) (val : Z) : Field := mkField key Int64Type val "".
Definition Int (key : string) (val : Z) : Field := Int64 key val.

(** What a time encoder appends to the [PrimitiveArrayEncoder]. *)
Inductive Appended : Type :=
| AppendInt64 (v : Z)
| AppendFloat64 (v : float64)
| AppendString (v : string)
| AppendNothing.

Inductive LevelEncoder : Type := LowercaseLevelEncoder | CapitalColorLevelEncoder.
Inductive DurationEncoder : Type := SecondsDurationEncoder.
Inductive CallerEncoder : Type := ShortCallerEncoder.

Record EncoderConfig : Type := mkEncoderConfig {
  MessageKey : string;
  LevelKey : string;
  TimeKey : string;
  NameKey : string;
  CallerKey : string;
  FunctionKey : string;
  StacktraceKey : string;
  LineEnding : string;
  EncodeLevel : LevelEncoder;
  EncodeTime : Time -> Appended;
  EncodeDuration : DurationEncoder;
  EncodeCaller : CallerEncoder;
  ConsoleSeparator : string
}.

Definition OmitKey : string := "".
Definition DefaultLineEnding : string := String.String (ascii_of_nat 10) "".

(** [zapcore.EpochTimeEncoder] *)
Definition EpochTimeEncoder (t : Time) : Appended :=
  let nanos := UnixNano t in
  AppendFloat64 (float64_div (float64_of_int nanos) (float64_of_int Second)).

(** [zapcore.TimeEncoderOfLayout] *)
Definition TimeEncoderOfLayout (layout : string) (t : Time) : Appended :=
  match Format t layout with
  | Some s => AppendString s
  | None => AppendNothing
  end.

(** [zap.NewProductionEncoderConfig] *)
Definition NewProductionEncoderConfig : EncoderConfig :=
  {| MessageKey := "msg";
     LevelKey := "level";
     TimeKey := "ts";
     NameKey := "logger";
     CallerKey := "caller";
     FunctionKey := OmitKey;
     StacktraceKey := "stacktrace";
     LineEnding := DefaultLineEnding;
     EncodeLevel := LowercaseLevelEncoder;
     EncodeTime := EpochTimeEncoder;
     EncodeDuration := SecondsDurationEncoder;
     EncodeCaller := ShortCallerEncoder;
     ConsoleSeparator := "" |}.

(** Assignments to the fields of a configuration. *)
Definition setTimeKey (ec : EncoderConfig) (v : string) : EncoderConfig :=
  mkEncoderConfig (MessageKey ec) (LevelKey ec) v (NameKey ec) (CallerKey ec)
    (FunctionKey ec) (StacktraceKey ec) (LineEnding ec) (EncodeLevel ec)
    (EncodeTime ec) (EncodeDuration ec) (EncodeCaller ec) (ConsoleSeparator ec).

Definition setEncodeLevel (ec : EncoderConfig) (v : LevelEncoder) : EncoderConfig :=
  mkEncoderConfig (MessageKey ec) (LevelKey ec) (TimeKey ec) (NameKey ec) (CallerKey ec)
    (FunctionKey ec) (StacktraceKey ec) (LineEnding ec) v
    (EncodeTime ec) (EncodeDuration ec) (EncodeCaller ec) (ConsoleSeparator ec).

Definition setEncodeTime (ec : EncoderConfig) (v : Time -> Appended) : EncoderConfig :=
  mkEncoderConfig (MessageKey ec) (LevelKey ec) (TimeKey ec) (NameKey ec) (CallerKey ec)
    (FunctionKey ec) (StacktraceKey ec) (LineEnding ec) (EncodeLevel ec)
    v (EncodeDuration ec) (EncodeCaller ec) (ConsoleSeparator ec).

Definition setEncodeDuration (ec : EncoderConfig) (v : DurationEncoder) : EncoderConfig :=
  mkEncoderConfig (MessageKey ec) (LevelKey ec) (TimeKey ec) (NameKey ec) (CallerKey ec)
    (FunctionKey ec) (StacktraceKey ec) (LineEnding ec) (EncodeLevel ec)
    (EncodeTime ec) v (EncodeCaller ec) (ConsoleSeparator ec).

Definition setConsoleSeparator (ec : EncoderConfig) (v : string) : EncoderConfig :=
  mkEncoderConfig (MessageKey ec) (LevelKey ec) (TimeKey ec) (NameKey ec) (CallerKey ec)
    (FunctionKey ec) (StacktraceKey ec) (LineEnding ec) (EncodeLevel ec)
    (EncodeTime ec) (EncodeDuration ec) (EncodeCaller ec) v.

(** The two encoders of [zapcore]. *)
Inductive Encoder : Type :=
| JSONEncoder (cfg : EncoderConfig)
| ConsoleEncoder (cfg : EncoderConfig).

Definition NewJSONEncoder (cfg : EncoderConfig) : Encoder := JSONEncoder cfg.

Definition NewConsoleEncoder (cfg : EncoderConfig) : Encoder :=
  if String.eqb (ConsoleSeparator cfg) ""
  then ConsoleEncoder (setConsoleSeparator cfg (String.String (ascii_of_nat 9) ""))
  else ConsoleEncoder cfg.

Definition configOf (e : Encoder) : EncoderConfig :=
  match e with JSONEncoder cfg | ConsoleEncoder cfg => cfg end.

Definition isJSON (e : Encoder) : bool :=
  match e with JSONEncoder _ => true | ConsoleEncoder _ => false end.

(** Where a core writes. *)
Inductive WriteSyncer : Type :=
| Stdout
| RotatingFile (l : Lumberjack.Logger).

(** An [ioCore]: minimum level, encoder, the fields added to the
    encoder by [With], and the destination. *)
Record Sink : Type := mkSink {
  sinkLevel : Level;
  sinkEncoder : Encoder;
  sinkContext : list Field;
  sinkOut : WriteSyncer
}.

#[warnings="-register-all"]
Inductive Core : Type :=
| NopCore
| IoCore (s : Sink)
| MultiCore (cs : list Core).

Definition NewCore (enc : Encoder) (ws : WriteSyncer) (enab : Level) : Core :=
  IoCore (mkSink enab enc [] ws).

(** [zapcore.NewTee] *)
Definition NewTee (cores : list Core) : Core :=
  match cores with
  | [] => NopCore
  | [c] => c
  | _ => MultiCore cores
  end.

(** The sinks a core writes to, in order. *)
Fixpoint sinks (c : Core) : list Sink :=
  match c with
  | NopCore => []
  | IoCore s => [s]
  | MultiCore cs => flat_map sinks cs
  end.

(** [Core.With] *)
Fixpoint Core_With (c : Core) (fields : list Field) : Core :=
  match c with
  | NopCore => NopCore
  | IoCore s =>
      IoCore (mkSink (sinkLevel s) (sinkEncoder s) (sinkContext s ++ fields) (sinkOut s))
  | MultiCore cs => MultiCore (List.map (fun c' => Core_With c' fields) cs)
  end.

(** [Core.Enabled] *)
Fixpoint Core_Enabled (c : Core) (lvl : Level) : bool :=
  match c with
  | NopCore => false
  | IoCore s => Enabled (sinkLevel s) lvl
  | MultiCore cs => existsb (fun c' => Core_Enabled c' lvl) cs
  end.

Record Logger : Type := mkLogger {
  core : Core;
  addCaller : bool;
  addStack : Level
}.

Inductive Option : Type :=
| AddCaller
| AddStacktrace (lvl : Level).

Definition apply (o : Option) (log : Logger) : Logger :=
  match o with
  | AddCaller => mkLogger (core log) true (addStack log)
  | AddStacktrace lvl => mkLogger (core log) (addCaller log) lvl
  end.

(** [zap.New]: no caller annotation and no stack trace below
    [FatalLevel + 1] unless an option says otherwise. *)
Definition New (c : Core) (opts : list Option) : Logger :=
  fold_left (fun log o => apply o log) opts (mkLogger c false (FatalLevel + 1)).

(** [Logger.With] *)
Definition With (log : Logger) (fields : list Field) : Logger :=
  match fields with
  | [] => log
  | _ => mkLogger (Core_With (core log) fields) (addCaller log) (addStack log)
  end.

(** The time of an entry in the output of an encoder: a field under a
    key, or an element of the line that has no key. *)
Inductive TimeElement : Type :=
| Keyed (key : string) (v : Appended)
| Bare (v : Appended).

(** One record as the core of a sink is handed it, with the encoder
    that turns it into bytes and the destination the bytes are meant
    for.  Whether the destination takes the bytes is not part of it. *)
Record Written : Type := mkWritten {
  writtenTo : WriteSyncer;
  writtenBy : Encoder;
  writtenTime : option TimeElement;
  writtenLevel : Level;
  writtenMessage : string;
  writtenCaller : bool;
  writtenStack : bool;
  writtenFields : list Field
}.

(** What the configuration of an encoder decides about the time of an
    entry: the configured [TimeKey] and what [EncodeTime] appends; no
    time at all when the key is omitted.  How the two encoders put it in
    their output is [timeElement]. *)
Definition timeField (enc : Encoder) (now : Time) : option (string * Appended) :=
  let cfg := configOf enc in
  if String.eqb (TimeKey cfg) OmitKey then None
  else Some (TimeKey cfg, EncodeTime cfg now).

(** The time in the output of [EncodeEntry].  Both encoders leave out
    the zero time.  The JSON encoder adds a field under the key, and
    falls back to the nanoseconds when [EncodeTime] appends nothing; the
    console encoder puts what [EncodeTime] appends first on the line,
    with no key. *)
Definition timeElement (enc : Encoder) (now : Time) : option TimeElement :=
  if IsZero now then None
  else
    match timeField enc now with
    | None => None
    | Some (key, v) =>
        match enc, v with
        | JSONEncoder _, AppendNothing => Some (Keyed key (AppendInt64 (UnixNano now)))
        | JSONEncoder _, _ => Some (Keyed key v)
        | ConsoleEncoder _, AppendNothing => None
        | ConsoleEncoder _, _ => Some (Bare v)
        end
    end.

(** A logging call ([Debug], [Info], ... [Fatal]) at time [now]: the
    records handed to the sinks, one per sink that admits the level. *)
Definition Log (log : Logger) (now : Time) (lvl : Level) (msg : string)
    (fields : list Field) : list Written :=
  if (lvl <? DPanicLevel) && negb (Core_Enabled (core log) lvl) then []
  else
    List.map
      (fun s => mkWritten (sinkOut s) (sinkEncoder s)
                  (timeElement (sinkEncoder s) now) lvl msg
                  (addCaller log) (Enabled (addStack log) lvl)
                  (sinkContext s ++ fields))
      (filter (fun s => Enabled (sinkLevel s) lvl) (sinks (core log))).

End Zap.

(** ** Package [logging] *)

Module Logging.
Import GoNum GoTime GoOS GoStrings.

Definition requestIDField : string := "reqId".

Record Params : Type := mkParams {
  PrettyLogging : bool;
  Debug : bool;
  Level : Zap.Level;
  EnableFileLogging : bool;
  LogFileName : string;
  MaxSize : Z
}.

Definition zapBaseEncoderConfig : Zap.EncoderConfig :=
  let ec := Zap.NewProductionEncoderConfig in
  let ec := Zap.setEncodeDuration ec Zap.SecondsDurationEncoder in
  let ec := Zap.setTimeKey ec "time" in
  ec.

(** The time encoder that [ZapJsonEncoder] installs. *)
Definition millisEncodeTime (t : Time) : Zap.Appended :=
  let nanos := UnixNano t in
  let millis :=
    int64_of_float64
      (math_Trunc (float64_div (float64_of_int nanos) (float64_of_int Millisecond))) in
  Zap.AppendInt64 millis.

Definition ZapJsonEncoder : Zap.Encoder :=
  let ec := zapBaseEncoderConfig in
  let ec := Zap.setEncodeTime ec millisEncodeTime in
  Zap.NewJSONEncoder ec.

Definition zapConsoleEncoder : Zap.Encoder :=
  let ec := zapBaseEncoderConfig in
  let ec := Zap.setConsoleSeparator ec " " in
  let ec := Zap.setEncodeTime ec (Zap.TimeEncoderOfLayout "15:04:05 PM") in
  let ec := Zap.setEncodeLevel ec Zap.CapitalColorLevelEncoder in
  Zap.NewConsoleEncoder ec.

Definition attachBaseFields (os : OS) (logger : Zap.Logger) : Zap.Logger :=
  let '(host, err) := Hostname os in
  let host := match err with Some _ => "unknown" | None => host end in
  let logger :=
    Zap.With logger [Zap.String "hostname" host; Zap.Int "pid" (Getpid os)] in
  logger.

Definition newZapCore (syncer : Zap.WriteSyncer) (prettyLogging : bool)
    (level : Zap.Level) : Zap.Core :=
  let encoder := if prettyLogging then zapConsoleEncoder else ZapJsonEncoder in
  Zap.NewCore encoder syncer level.

Definition newZapLogger (os : OS) (core : Zap.Core) (prettyLogging debug : bool)
    : Zap.Logger :=
  let zapOpts : list Zap.Option := [] in
  let zapOpts := if debug then (zapOpts ++ [Zap.AddCaller])%list else zapOpts in
  let zapOpts := (zapOpts ++ [Zap.AddStacktrace Zap.ErrorLevel])%list in
  let logger := Zap.New core zapOpts in
  let logger := if negb prettyLogging then attachBaseFields os logger else logger in
  logger.

Definition New (os : OS) (params : Params) : Zap.Logger :=
  let cores : list Zap.Core := [] in
  let cores :=
    (cores ++ [newZapCore Zap.Stdout (PrettyLogging params) (Level params)])%list in
  let cores :=
    if EnableFileLogging params then
      let fileLoggerSync :=
        Zap.RotatingFile
          (Lumberjack.mkLogger (LogFileName params) (MaxSize params) false) in
      (cores ++ [newZapCore fileLoggerSync false (Level params)])%list
    else cores in
  newZapLogger os (Zap.NewTee cores) (PrettyLogging params) (Debug params).

Section CaseTables.

Variable CaseRanges : list CaseRange.

Definition ZapLogLevelFromString (logLevel : string) : Zap.Level * option error :=
  let u := ToUpper CaseRanges logLevel in
  if String.eqb u "DEBUG" then (Zap.DebugLevel, None)
  else if String.eqb u "INFO" then (Zap.InfoLevel, None)
  else if String.eqb u "WARNING" then (Zap.WarnLevel, None)
  else if String.eqb u "ERROR" then (Zap.ErrorLevel, None)
  else if String.eqb u "FATAL" then (Zap.FatalLevel, None)
  else if String.eqb u "PANIC" then (Zap.PanicLevel, None)
  else (-1, Some ("unknown log level: " ++ logLevel)).

End CaseTables.

Definition WithRequestID (reqID : string) : Zap.Field :=
  Zap.String requestIDField reqID.

End Logging.

(** ** The wording of the specification

    Definitions that follow the words of the specification, to be
    compared with the package, and the concrete values used as examples. *)

Module Wording.
Import GoNum GoTime GoOS GoStrings Logging.

(** The six severity names and the severity each one stands for. *)
Definition severityNames : list (string * Zap.Level) :=
  [ ("DEBUG", Zap.DebugLevel); ("INFO", Zap.InfoLevel); ("WARNING", Zap.WarnLevel);
    ("ERROR", Zap.ErrorLevel); ("FATAL", Zap.FatalLevel); ("PANIC", Zap.PanicLevel) ].

(** [name] is made of the capital letters A to Z. *)
Definition capitals (name : string) : bool :=
  forallb (fun b => (65 <=? b) && (b <=? 90)) (bytesOf name).

(** The level the mapper returns, its error put aside. *)
Definition levelOf (CaseRanges : list CaseRange) (s : string) : Zap.Level :=
  fst (ZapLogLevelFromString CaseRanges s).

(** [c] is the capital letter [d] or its small letter. *)
Definition sameLetter (d c : ascii) : bool :=
  (byteOf c =? byteOf d) || (byteOf c =? byteOf d + 32).

(** [s] is the (capital) name [name] in some letter case. *)
Fixpoint isCasingOf (name s : string) : bool :=
  match name, s with
  | EmptyString, EmptyString => true
  | String d name', String c s' => sameLetter d c && isCasingOf name' s'
  | _, _ => false
  end.

(** [s] is one of the six names in some letter case. *)
Definition isSeverityName (s : string) : bool :=
  existsb (fun nl => isCasingOf (fst nl) s) severityNames.

(** The upper-cased input is one of the six names: the input reaches a
    [case] of the [switch] other than [default]. *)
Definition recognized (CaseRanges : list CaseRange) (s : string) : bool :=
  existsb (fun nl => String.eqb (ToUpper CaseRanges s) (fst nl)) severityNames.

(** The nanosecond count divided by 1,000,000, truncated toward zero. *)
Definition exactMillis (nanos : Z) : Z := Z.quot nanos 1000000.

(** Two decimal digits. *)
Definition twoDigits (x : Z) : string :=
  String (digit (x / 10)) (String (digit (x mod 10)) "").

Definition marker (t : Time) : string := if Hour t <? 12 then "AM" else "PM".

(** A 12-hour clock reading followed by the AM/PM marker. *)
Definition twelveHourReading (t : Time) : string :=
  twoDigits (hour12 t) ++ ":" ++ twoDigits (Minute t) ++ ":" ++ twoDigits (Sec t)
    ++ " " ++ marker t.

(** The 24-hour clock reading followed by the AM/PM marker. *)
Definition dayHourReading (t : Time) : string :=
  twoDigits (Hour t) ++ ":" ++ twoDigits (Minute t) ++ ":" ++ twoDigits (Sec t)
    ++ " " ++ marker t.

(** The host name the base fields carry. *)
Definition hostOrUnknown (os : OS) : string :=
  match snd (Hostname os) with
  | Some _ => "unknown"
  | None => fst (Hostname os)
  end.

Definition baseFields (os : OS) : list Zap.Field :=
  [Zap.String "hostname" (hostOrUnknown os); Zap.Int "pid" (Getpid os)].

(** *** Example values *)

(** 2023-11-14 22:13:19.999999999 UTC, one nanosecond before the
    millisecond 1,700,000,000,000. *)
Definition lastNanosecond : Time := mkTime 1699999999 999999999 0.

(** 13:05:09 on 1970-01-01, UTC. *)
Definition afternoon : Time := mkTime 47109 0 0.

(** The string [ınfo]: a dotless i (U+0131, bytes C4 B1), then [nfo]. *)
Definition dotlessInfo : string := ofBytes [196; 177; 110; 102; 111].

Definition denied : error := "open /var/log/router/router.log: permission denied".

Definition readOnlyHost : OS :=
  mkOS ("router-1", None) 4242 (fun _ => Some denied).

Definition writableHost : OS :=
  mkOS ("router-1", None) 4242 (fun _ => None).

Definition namelessHost : OS :=
  mkOS ("", Some "hostname: no such file or directory") 7 (fun _ => None).

Definition fileParams : Params :=
  mkParams false false Zap.InfoLevel true "/var/log/router/router.log" 100.

Definition prettyParams : Params :=
  mkParams true true Zap.DebugLevel false "" 0.

End Wording.

(** ** Auxiliary notions for the further properties *)

Module Further.
Import GoNum GoTime GoOS GoStrings Logging Wording.

(** Two bytes are equal, or one is a small ASCII letter and the other
    its capital. *)
Definition isLowerByte (b : Z) : bool := (97 <=? b) && (b <=? 122).

Definition sameByteFold (b1 b2 : Z) : bool :=
  (b1 =? b2) || (isLowerByte b1 && (b2 =? b1 - 32))
  || (isLowerByte b2 && (b1 =? b2 - 32)).

(** Two strings are equal byte by byte up to the case of ASCII letters. *)
Fixpoint equalFold (s1 s2 : string) : bool :=
  match s1, s2 with
  | EmptyString, EmptyString => true
  | String c1 r1, String c2 r2 =>
      sameByteFold (byteOf c1) (byteOf c2) && equalFold r1 r2
  | _, _ => false
  end.

(** A sink with further fields added to its encoder. *)
Definition withContext (fields : list Zap.Field) (s : Zap.Sink) : Zap.Sink :=
  Zap.mkSink (Zap.sinkLevel s) (Zap.sinkEncoder s) (Zap.sinkContext s ++ fields)
    (Zap.sinkOut s).

(** Induction on a core, with the hypothesis available for every core
    under a [MultiCore]. *)
Fixpoint Core_nested_ind (P : Zap.Core -> Prop)
    (Hnop : P Zap.NopCore)
    (Hio : forall s, P (Zap.IoCore s))
    (Hmulti : forall cs, Forall P cs -> P (Zap.MultiCore cs))
    (c : Zap.Core) : P c :=
  match c with
  | Zap.NopCore => Hnop
  | Zap.IoCore s => Hio s
  | Zap.MultiCore cs =>
      Hmulti cs
        ((fix all (l : list Zap.Core) : Forall P l :=
            match l with
            | [] => Forall_nil P
            | c' :: l' =>
                Forall_cons c' (Core_nested_ind P Hnop Hio Hmulti c') (all l')
            end) cs)
  end.

(** A time one whole number of days later, in the same location. *)
Definition daysLater (k : Z) (t : Time) : Time :=
  mkTime (unixSec t + 86400 * k) (nsec t) (zoneOffset t).

(** A tee of a tee, as [zapcore.NewTee] accepts it. *)
Definition nestedTee : Zap.Core :=
  Zap.NewTee
    [Zap.NewTee [newZapCore Zap.Stdout true Zap.InfoLevel;
                 newZapCore Zap.Stdout false Zap.ErrorLevel];
     Zap.NopCore].

End Further.

Import GoNum GoTime GoOS GoStrings Logging Wording Further.

(** * Properties *)

(** ** The structured time stamp *)

Lemma jsonEncoder_timeField (t : Time) :
  Zap.timeField ZapJsonEncoder t = Some ("time", millisEncodeTime t).
Proof. reflexivity. Qed.

(** On these time stamps the encoder gives the exact quotient; on a
    negative one it truncates toward zero. *)
Example millis_exact_samples :
  List.map (fun n => millisEncodeTime (mkTime 0 n 0))
    [0; 999999; 1000000; 1999999; -1; -1500000]
  = List.map (fun n => Zap.AppendInt64 (exactMillis n))
    [0; 999999; 1000000; 1999999; -1; -1500000].
Proof. vm_compute. reflexivity. Qed.

(** In the last microsecond before the millisecond 1,700,000,000,000
    the encoder is exact up to 129 nanoseconds before the boundary and
    one millisecond ahead on the 128 nanoseconds that follow. *)
Example millis_last_microsecond :
  List.map (fun k => millisEncodeTime (mkTime 1699999999 (999999000 + Z.of_nat k) 0))
    (seq 0 1000)
  = List.map (fun k => Zap.AppendInt64
                         (if Z.of_nat k <? 872 then 1699999999999 else 1700000000000))
      (seq 0 1000).
Proof. vm_compute. reflexivity. Qed.

(** C1 (defect of the code).  The structured encoder is meant to emit
    the nanosecond count divided by 1,000,000 and truncated, but it
    divides in [float64]: at 2023-11-14 22:13:19.999999999 UTC the count
    1,699,999,999,999,999,999 is first rounded to a multiple of 256, which
    is 1,700,000,000,000,000,000, and the record carries the millisecond
    1,700,000,000,000 where the exact quotient is 1,699,999,999,999. *)
Theorem C1_millis_rounded_up_at_boundary :
  UnixNano lastNanosecond = 1699999999999999999 /\
  Zap.timeField ZapJsonEncoder lastNanosecond
    = Some ("time", Zap.AppendInt64 1700000000000) /\
  exactMillis (UnixNano lastNanosecond) = 1699999999999 /\
  UnixNano lastNanosecond / 1000000 = 1699999999999.
Proof.
  rewrite jsonEncoder_timeField.
  repeat split; vm_compute; reflexivity.
Qed.

(** ** The request identifier *)

(** C9.  [WithRequestID s] is the one string field of key ["reqId"] and
    value [s]; it is a function of [s] alone. *)
Theorem C9_WithRequestID_field (s : string) :
  WithRequestID s = Zap.String "reqId" s /\
  Zap.Key (WithRequestID s) = "reqId" /\
  Zap.Type_ (WithRequestID s) = Zap.StringType /\
  Zap.String_ (WithRequestID s) = s.
Proof. repeat split. Qed.

(** ** Sinks *)

Lemma New_core (os : OS) (p : Params) :
  Zap.sinks (Zap.core (New os p))
  = List.map
      (fun s => Zap.mkSink (Zap.sinkLevel s) (Zap.sinkEncoder s)
                  (if PrettyLogging p then [] else baseFields os) (Zap.sinkOut s))
      (Zap.mkSink (Level p)
         (if PrettyLogging p then zapConsoleEncoder else ZapJsonEncoder) [] Zap.Stdout
       :: (if EnableFileLogging p
           then [Zap.mkSink (Level p) ZapJsonEncoder []
                   (Zap.RotatingFile
                      (Lumberjack.mkLogger (LogFileName p) (MaxSize p) false))]
           else [])).
Proof.
  destruct p as [pretty debug lvl file name size].
  destruct os as [[host [e|]] pid opn];
    destruct pretty, debug, file; reflexivity.
Qed.

(** C3.  [New] builds one sink, on standard output, when file logging is
    disabled, and a second one, on the rotating file, when it is enabled;
    the console sink takes the encoder the pretty flag selects, the file
    sink the structured encoder whatever the flag; both have the
    configured minimum level. *)
Theorem C3_New_sinks (os : OS) (p : Params) :
  let ss := Zap.sinks (Zap.core (New os p)) in
  List.map Zap.sinkOut ss
  = Zap.Stdout
    :: (if EnableFileLogging p
        then [Zap.RotatingFile (Lumberjack.mkLogger (LogFileName p) (MaxSize p) false)]
        else []) /\
  List.length ss = (if EnableFileLogging p then 2%nat else 1%nat) /\
  List.map Zap.sinkEncoder ss
  = (if PrettyLogging p then zapConsoleEncoder else ZapJsonEncoder)
    :: (if EnableFileLogging p then [ZapJsonEncoder] else []) /\
  List.map (fun s => Zap.isJSON (Zap.sinkEncoder s)) ss
  = negb (PrettyLogging p) :: (if EnableFileLogging p then [true] else []) /\
  Forall (fun s => Zap.sinkLevel s = Level p) ss.
Proof.
  cbv zeta. rewrite New_core.
  destruct (EnableFileLogging p), (PrettyLogging p); cbn [List.map List.length];
    repeat split; repeat constructor.
Qed.

(** ** Options and base fields *)

Lemma New_options (os : OS) (p : Params) :
  Zap.addCaller (New os p) = Debug p /\ Zap.addStack (New os p) = Zap.ErrorLevel.
Proof.
  destruct p as [pretty debug lvl file name size].
  destruct os as [[host [e|]] pid opn];
    destruct pretty, debug, file; split; reflexivity.
Qed.

Lemma New_enabled (os : OS) (p : Params) (lvl : Zap.Level) :
  Zap.Core_Enabled (Zap.core (New os p)) lvl = (Level p <=? lvl).
Proof.
  destruct p as [pretty debug lvl0 file name size].
  destruct os as [[host [e|]] pid opn];
    destruct pretty, debug, file; cbn; unfold Zap.Enabled;
    destruct (lvl0 <=? lvl); reflexivity.
Qed.

(** The records of one logging call on the assembled logger: one per
    sink when the level is admitted, none otherwise. *)
Lemma Log_New (os : OS) (p : Params) (now : Time) (lvl : Zap.Level)
    (msg : string) (fields : list Zap.Field) :
  Zap.Log (New os p) now lvl msg fields
  = if Level p <=? lvl
    then List.map
           (fun s => Zap.mkWritten (Zap.sinkOut s) (Zap.sinkEncoder s)
                       (Zap.timeElement (Zap.sinkEncoder s) now) lvl msg
                       (Debug p) (Zap.ErrorLevel <=? lvl)
                       ((if PrettyLogging p then [] else baseFields os) ++ fields))
           (Zap.sinks (Zap.core (New os p)))
    else [].
Proof.
  unfold Zap.Log. rewrite New_enabled.
  destruct (New_options os p) as [-> ->]. rewrite New_core.
  unfold Zap.Enabled.
  destruct (Level p <=? lvl) eqn:Hl.
  - rewrite andb_false_r.
    destruct (EnableFileLogging p); cbn [List.map filter Zap.sinkLevel];
      rewrite ?Hl; reflexivity.
  - destruct (lvl <? Zap.DPanicLevel); [reflexivity|].
    destruct (EnableFileLogging p); cbn [List.map filter Zap.sinkLevel andb negb];
      rewrite ?Hl; reflexivity.
Qed.

(** C5.  Without the pretty flag every record of the assembled logger
    carries, before the fields of the call, a ["hostname"] field (the
    host name, or ["unknown"] when the lookup returned an error) and a
    ["pid"] field; with the pretty flag it carries the fields of the call
    only.  A failed lookup changes nothing else: the logger is returned
    all the same, and it does write the records its level admits. *)
Theorem C5_base_fields (os : OS) (p : Params) (now : Time) (lvl : Zap.Level)
    (msg : string) (fields : list Zap.Field) :
  let records := Zap.Log (New os p) now lvl msg fields in
  let host := match Hostname os with
              | (_, Some _) => "unknown"
              | (name, None) => name
              end in
  (Level p <= lvl -> records <> []) /\
  Forall (fun w =>
            Zap.writtenFields w
            = if PrettyLogging p then fields
              else Zap.String "hostname" host :: Zap.Int "pid" (Getpid os) :: fields)
         records.
Proof.
  cbv zeta. rewrite Log_New, New_core. split.
  - intros Hl. apply Z.leb_le in Hl. rewrite Hl. discriminate.
  - destruct (Level p <=? lvl); [|constructor].
    apply Forall_forall. intros w Hw.
    apply in_map_iff in Hw. destruct Hw as (s & <- & _).
    cbn [Zap.writtenFields].
    destruct (PrettyLogging p); [reflexivity|].
    unfold baseFields, hostOrUnknown.
    destruct (Hostname os) as [name [e|]]; reflexivity.
Qed.

Lemma C5_base_fields_witness :
  Zap.Log (New namelessHost fileParams) lastNanosecond Zap.ErrorLevel "lookup failed" []
  <> [] /\
  Forall (fun w =>
            Zap.writtenFields w
            = [Zap.String "hostname" "unknown"; Zap.Int "pid" 7])
         (Zap.Log (New namelessHost fileParams) lastNanosecond Zap.ErrorLevel
            "lookup failed" []).
Proof.
  destruct (C5_base_fields namelessHost fileParams lastNanosecond Zap.ErrorLevel
              "lookup failed" []) as [Hne Hall].
  split.
  - apply Hne. vm_compute. discriminate.
  - exact Hall.
Defined.

(** C6.  The assembled logger annotates the caller exactly when the
    debug flag is set, and takes a stack trace exactly for the levels
    from [ErrorLevel] upward, whatever the flags; every record it writes
    is marked accordingly. *)
Theorem C6_caller_and_stack (os : OS) (p : Params) :
  Zap.addCaller (New os p) = Debug p /\
  (forall lvl, Zap.Enabled (Zap.addStack (New os p)) lvl = (Zap.ErrorLevel <=? lvl)) /\
  (forall now lvl msg fields,
      Forall (fun w => Zap.writtenCaller w = Debug p /\
                       Zap.writtenStack w = (Zap.ErrorLevel <=? lvl))
             (Zap.Log (New os p) now lvl msg fields)).
Proof.
  destruct (New_options os p) as [Hc Hs].
  split; [exact Hc|]. split.
  - intros lvl. rewrite Hs. reflexivity.
  - intros now lvl msg fields. rewrite Log_New.
    destruct (Level p <=? lvl); [|constructor].
    apply Forall_forall. intros w Hw.
    apply in_map_iff in Hw. destruct Hw as (s & <- & _). split; reflexivity.
Qed.

(** With file logging every admitted record is handed to both sinks, and
    the encoder of the file sink is the structured one. *)
Lemma Log_New_destinations (os : OS) (p : Params) (now : Time) (lvl : Zap.Level)
    (msg : string) (fields : list Zap.Field) :
  Level p <= lvl ->
  List.map (fun w => (Zap.writtenTo w, Zap.isJSON (Zap.writtenBy w)))
    (Zap.Log (New os p) now lvl msg fields)
  = (Zap.Stdout, negb (PrettyLogging p))
    :: (if EnableFileLogging p
        then [(Zap.RotatingFile (Lumberjack.mkLogger (LogFileName p) (MaxSize p) false),
               true)]
        else []).
Proof.
  intros Hl. apply Z.leb_le in Hl. rewrite Log_New, Hl, New_core.
  destruct (EnableFileLogging p), (PrettyLogging p); reflexivity.
Qed.

(** ** The console time stamp *)

Lemma clock_bounds (t : Time) :
  0 <= Hour t <= 23 /\ 0 <= Minute t <= 59 /\ 0 <= Sec t <= 59.
Proof.
  unfold Hour, Minute, Sec, secondsOfDay.
  pose proof (Z.mod_pos_bound (unixSec t + zoneOffset t) 86400 ltac:(lia)) as Hd.
  set (d := (unixSec t + zoneOffset t) mod 86400) in *.
  repeat split; Z.div_mod_to_equations; lia.
Qed.

Lemma appendInt_twoDigits (x : Z) : 0 <= x -> appendInt x 2 = twoDigits x.
Proof.
  intros Hx. unfold appendInt, twoDigits.
  destruct (x <? 10) eqn:Hlt; [|reflexivity].
  apply Z.ltb_lt in Hlt.
  rewrite Z.div_small, Z.mod_small by lia. reflexivity.
Qed.

Lemma marker_PM (t : Time) : (if 12 <=? Hour t then "PM" else "AM") = marker t.
Proof.
  unfold marker.
  destruct (12 <=? Hour t) eqn:H1, (Hour t <? 12) eqn:H2; try reflexivity; lia.
Qed.

Lemma console_layout_chunks :
  chunks "15:04:05 PM" 0
  = [stdHour; Lit ":"; stdZeroMinute; Lit ":"; stdZeroSecond; Lit " "; stdPM].
Proof. vm_compute. reflexivity. Qed.

Lemma append_empty (s : string) : s ++ "" = s.
Proof. induction s as [|c s IH]; cbn; [|rewrite IH]; reflexivity. Qed.

Lemma Format_console_layout (t : Time) :
  Format t "15:04:05 PM" = Some (dayHourReading t).
Proof.
  destruct (clock_bounds t) as (Hh & Hm & Hs).
  unfold Format. rewrite console_layout_chunks.
  cbn [renderAll render].
  rewrite !appendInt_twoDigits by lia. rewrite marker_PM, append_empty.
  reflexivity.
Qed.

Lemma consoleEncoder_timeField (t : Time) :
  Zap.timeField zapConsoleEncoder t
  = Some ("time", Zap.TimeEncoderOfLayout "15:04:05 PM" t).
Proof. reflexivity. Qed.

(** C7, as stated, fails: at 13:05:09 the console encoder writes
    [13:05:09 PM], which is not the 12-hour reading [01:05:09 PM]. *)
Lemma C7_not_a_twelve_hour_reading :
  Zap.timeField zapConsoleEncoder afternoon
    = Some ("time", Zap.AppendString "13:05:09 PM") /\
  twelveHourReading afternoon = "01:05:09 PM" /\
  Zap.timeField zapConsoleEncoder afternoon
    <> Some ("time", Zap.AppendString (twelveHourReading afternoon)).
Proof.
  rewrite consoleEncoder_timeField.
  repeat split; try (vm_compute; reflexivity).
  vm_compute. discriminate.
Qed.

(** C7, amended.  For every time the console encoder writes the hour of
    the 24-hour clock (00 to 23), the minute and the second, two digits
    each, then a space and the marker, AM before noon and PM from noon. *)
Theorem C7_console_time_reading (t : Time) :
  Zap.timeField zapConsoleEncoder t
    = Some ("time", Zap.AppendString (dayHourReading t)) /\
  dayHourReading t
    = twoDigits (Hour t) ++ ":" ++ twoDigits (Minute t) ++ ":" ++ twoDigits (Sec t)
      ++ " " ++ (if Hour t <? 12 then "AM" else "PM") /\
  0 <= Hour t <= 23 /\ 0 <= Minute t <= 59 /\ 0 <= Sec t <= 59.
Proof.
  rewrite consoleEncoder_timeField. unfold Zap.TimeEncoderOfLayout.
  rewrite Format_console_layout.
  split; [reflexivity|]. split; [reflexivity|]. apply clock_bounds.
Qed.

(** The text written is the 12-hour reading from 01:00:00 to 12:59:59
    and at no other time of the day. *)
Lemma dayHourReading_twelve (t : Time) :
  dayHourReading t = twelveHourReading t <-> 1 <= Hour t <= 12.
Proof.
  destruct (clock_bounds t) as (Hh & _).
  unfold dayHourReading, twelveHourReading, hour12.
  split.
  - intros Heq.
    assert (Hcases : 1 <= Hour t <= 12 \/ Hour t = 0 \/ Hour t = 13 \/ Hour t = 14
                     \/ Hour t = 15 \/ Hour t = 16 \/ Hour t = 17 \/ Hour t = 18
                     \/ Hour t = 19 \/ Hour t = 20 \/ Hour t = 21 \/ Hour t = 22
                     \/ Hour t = 23) by lia.
    destruct Hcases as [H|H]; [exact H|].
    exfalso.
    repeat (destruct H as [H|H]; [rewrite H in Heq; cbn in Heq; discriminate Heq|]).
    rewrite H in Heq; cbn in Heq; discriminate Heq.
  - intros H.
    assert (Hmod : (if Hour t mod 12 =? 0 then 12 else Hour t mod 12) = Hour t).
    { destruct (Z.eq_dec (Hour t) 12) as [->|Hne]; [reflexivity|].
      rewrite Z.mod_small by lia.
      destruct (Hour t =? 0) eqn:H0; [lia|reflexivity]. }
    rewrite Hmod. reflexivity.
Qed.

(** ** Opening the log file *)

(** C8, as stated, fails: with file logging enabled on a host where the
    log file cannot be opened, [New] returns exactly the logger it
    returns where the file can be opened; nothing tells its caller. *)
Lemma C8_open_failure_not_reported :
  EnableFileLogging fileParams = true /\
  OpenFile readOnlyHost (LogFileName fileParams) = Some denied /\
  OpenFile writableHost (LogFileName fileParams) = None /\
  New readOnlyHost fileParams = New writableHost fileParams.
Proof. repeat split. Qed.

(** C8, amended.  [New] has a logger as its only result and reports no
    failure to its caller: it does not open or create the log file.  With
    file logging enabled it stores the file name and the maximum size of
    the configuration in a rotating writer that holds no open file, and
    the logger it returns is the same whether or not the file can be
    opened: it is the same on any two hosts of equal host name and
    process id. *)
Theorem C8_New_opens_no_file (os : OS) (p : Params) :
  (forall os', Hostname os' = Hostname os -> Getpid os' = Getpid os ->
               New os' p = New os p) /\
  (EnableFileLogging p = true ->
   List.map Zap.sinkOut (Zap.sinks (Zap.core (New os p)))
   = [Zap.Stdout;
      Zap.RotatingFile (Lumberjack.mkLogger (LogFileName p) (MaxSize p) false)]).
Proof.
  split.
  - intros os' Hh Hp. destruct os as [h pid o], os' as [h' pid' o'].
    cbn in Hh, Hp. subst h' pid'. reflexivity.
  - intros Hf. rewrite New_core, Hf. reflexivity.
Qed.

Lemma C8_New_opens_no_file_witness :
  New writableHost fileParams = New readOnlyHost fileParams /\
  List.map Zap.sinkOut (Zap.sinks (Zap.core (New readOnlyHost fileParams)))
  = [Zap.Stdout;
     Zap.RotatingFile (Lumberjack.mkLogger "/var/log/router/router.log" 100 false)].
Proof.
  destruct (C8_New_opens_no_file readOnlyHost fileParams) as (Hsame & Hsink).
  split.
  - apply Hsame; reflexivity.
  - apply Hsink. reflexivity.
Defined.

(** ** The severity mapper *)

(** *** Bytes and upper-casing of ASCII strings *)

Lemma byteOf_bounds (c : ascii) : 0 <= byteOf c < 256.
Proof.
  unfold byteOf. pose proof (N_ascii_bounded c). lia.
Qed.

Lemma ofByte_byteOf (c : ascii) : ofByte (byteOf c) = c.
Proof.
  unfold ofByte. rewrite Z.mod_small by apply byteOf_bounds.
  unfold byteOf. rewrite N2Z.id. apply ascii_N_embedding.
Qed.

Lemma byteOf_ofByte (b : Z) : 0 <= b < 256 -> byteOf (ofByte b) = b.
Proof.
  intros Hb. unfold ofByte, byteOf. rewrite Z.mod_small by lia.
  rewrite N_ascii_embedding by lia. lia.
Qed.

Lemma byteOf_inj (c d : ascii) : byteOf c = byteOf d -> c = d.
Proof.
  intros H. rewrite <- (ofByte_byteOf c), <- (ofByte_byteOf d), H. reflexivity.
Qed.

Lemma ofBytes_bytesOf (s : string) : ofBytes (bytesOf s) = s.
Proof.
  induction s as [|c s IH]; cbn; [|rewrite ofByte_byteOf, IH]; reflexivity.
Qed.

Lemma upperByte_no_lower (l : list Z) :
  existsb (fun b => (97 <=? b) && (b <=? 122)) l = false ->
  List.map upperByte l = l.
Proof.
  induction l as [|b l IH]; cbn; [reflexivity|].
  intros H. apply orb_false_iff in H. destruct H as [Hb Hl].
  unfold upperByte at 1. rewrite Hb, IH by exact Hl. reflexivity.
Qed.

(** On an ASCII string [strings.ToUpper] upper-cases byte by byte,
    whatever the case table. *)
Lemma ToUpper_ascii (tbl : list CaseRange) (s : string) :
  isASCII s = true ->
  ToUpper tbl s = ofBytes (List.map upperByte (bytesOf s)).
Proof.
  intros Ha. unfold ToUpper. rewrite Ha.
  destruct (hasLower s) eqn:Hl; cbn [negb]; [reflexivity|].
  unfold hasLower in Hl. rewrite upperByte_no_lower by exact Hl.
  symmetry. apply ofBytes_bytesOf.
Qed.

Lemma sameLetter_upper (d c : ascii) :
  65 <= byteOf d <= 90 -> sameLetter d c = true ->
  byteOf c < RuneSelf /\ ofByte (upperByte (byteOf c)) = d.
Proof.
  intros Hd Hs. unfold sameLetter in Hs. unfold RuneSelf, upperByte.
  apply orb_true_iff in Hs. destruct Hs as [H|H]; apply Z.eqb_eq in H.
  - split; [lia|].
    destruct ((97 <=? byteOf c) && (byteOf c <=? 122)) eqn:Hl; [lia|].
    rewrite H. apply ofByte_byteOf.
  - split; [lia|].
    destruct ((97 <=? byteOf c) && (byteOf c <=? 122)) eqn:Hl; [|lia].
    replace (byteOf c - 32) with (byteOf d) by lia. apply ofByte_byteOf.
Qed.

Lemma upper_sameLetter (d c : ascii) :
  ofByte (upperByte (byteOf c)) = d -> sameLetter d c = true.
Proof.
  intros H. unfold sameLetter. apply orb_true_iff.
  pose proof (byteOf_bounds c) as Hc. unfold upperByte in H.
  destruct ((97 <=? byteOf c) && (byteOf c <=? 122)) eqn:Hl.
  - right. apply Z.eqb_eq. subst d. rewrite byteOf_ofByte by lia. lia.
  - left. apply Z.eqb_eq. subst d. rewrite ofByte_byteOf. reflexivity.
Qed.

(** A name in some letter case is an ASCII string whose upper-casing is
    the name. *)
Lemma casing_upper (name s : string) :
  capitals name = true -> isCasingOf name s = true ->
  isASCII s = true /\ ofBytes (List.map upperByte (bytesOf s)) = name.
Proof.
  unfold capitals, isASCII. revert s.
  induction name as [|d name IH]; intros [|c s] Hcap Hcase; cbn in *;
    try discriminate; [split; reflexivity|].
  apply andb_true_iff in Hcap. destruct Hcap as [Hd Hcap].
  apply andb_true_iff in Hcase. destruct Hcase as [Hs Hcase].
  destruct (sameLetter_upper d c ltac:(lia) Hs) as [Hlt Hup].
  destruct (IH s Hcap Hcase) as [Ha Hu].
  split.
  - apply andb_true_iff. split; [apply Z.ltb_lt; exact Hlt | exact Ha].
  - rewrite Hup, Hu. reflexivity.
Qed.

(** Conversely, a string whose byte-wise upper-casing is [name] is
    [name] in some letter case. *)
Lemma upper_casing (s name : string) :
  ofBytes (List.map upperByte (bytesOf s)) = name -> isCasingOf name s = true.
Proof.
  revert name. induction s as [|c s IH]; intros name H; cbn in H; subst name.
  - reflexivity.
  - cbn. rewrite (upper_sameLetter _ c eq_refl). cbn. apply IH. reflexivity.
Qed.

Lemma severityNames_capitals (name : string) (lvl : Zap.Level) :
  In (name, lvl) severityNames -> capitals name = true.
Proof.
  intros H. cbn in H.
  repeat (destruct H as [H|H]; [inversion H; reflexivity|]). destruct H.
Qed.

(** *** The three cases of the mapper *)

Lemma mapper_on_upper (tbl : list CaseRange) (s name : string) (lvl : Zap.Level) :
  In (name, lvl) severityNames -> ToUpper tbl s = name ->
  ZapLogLevelFromString tbl s = (lvl, None).
Proof.
  intros Hin Hup. unfold ZapLogLevelFromString. rewrite Hup. cbn in Hin.
  repeat (destruct Hin as [Hin|Hin]; [inversion Hin; reflexivity|]). destruct Hin.
Qed.

Lemma mapper_on_casing (tbl : list CaseRange) (s name : string) (lvl : Zap.Level) :
  In (name, lvl) severityNames -> isCasingOf name s = true ->
  ZapLogLevelFromString tbl s = (lvl, None).
Proof.
  intros Hin Hcase.
  destruct (casing_upper name s (severityNames_capitals _ _ Hin) Hcase) as [Ha Hu].
  apply (mapper_on_upper tbl s name lvl Hin).
  rewrite ToUpper_ascii by exact Ha. exact Hu.
Qed.

Lemma mapper_unrecognized (tbl : list CaseRange) (s : string) :
  recognized tbl s = false ->
  ZapLogLevelFromString tbl s = (-1, Some ("unknown log level: " ++ s)).
Proof.
  unfold recognized, ZapLogLevelFromString. cbn [existsb severityNames fst].
  intros H.
  repeat (apply orb_false_iff in H; destruct H as [-> H]).
  reflexivity.
Qed.

Lemma recognized_ascii_is_name (tbl : list CaseRange) (s : string) :
  isASCII s = true -> recognized tbl s = true -> isSeverityName s = true.
Proof.
  intros Ha Hr. unfold recognized in Hr. unfold isSeverityName.
  apply existsb_exists in Hr. destruct Hr as ([name lvl] & Hin & Heq).
  apply existsb_exists. exists (name, lvl). split; [exact Hin|].
  cbn [fst] in *. apply String.eqb_eq in Heq.
  apply upper_casing. rewrite <- ToUpper_ascii with (tbl := tbl) by exact Ha.
  exact Heq.
Qed.

Lemma mapper_ascii_other (tbl : list CaseRange) (s : string) :
  isASCII s = true -> isSeverityName s = false ->
  ZapLogLevelFromString tbl s = (-1, Some ("unknown log level: " ++ s)).
Proof.
  intros Ha Hn. apply mapper_unrecognized.
  destruct (recognized tbl s) eqn:Hr; [|reflexivity].
  rewrite (recognized_ascii_is_name tbl s Ha Hr) in Hn. discriminate.
Qed.

(** C2, as stated, fails on its last part: the string made of a dotless
    i (U+0131) followed by [nfo] is none of the six names in any letter
    case, yet [strings.ToUpper] turns it into [INFO] and the mapper
    returns [InfoLevel] and no error. *)
Lemma C2_dotless_i_accepted :
  bytesOf dotlessInfo = [196; 177; 110; 102; 111] /\
  isSeverityName dotlessInfo = false /\
  ToUpper CaseRanges_Latin dotlessInfo = "INFO" /\
  ZapLogLevelFromString CaseRanges_Latin dotlessInfo = (Zap.InfoLevel, None).
Proof. repeat split; vm_compute; reflexivity. Qed.

(** C2, amended.  A string that is one of the six names in any letter
    case is mapped to the severity of the name with no error, hence
    equally for every casing of the name.  Any other string of ASCII
    bytes, and any string at all whose upper-casing by [strings.ToUpper]
    is none of the six names, is answered with level -1 and an error that
    carries the string.  This holds for every case table. *)
Theorem C2_mapper_cases (tbl : list CaseRange) (s : string) :
  (forall name lvl,
      In (name, lvl) severityNames -> isCasingOf name s = true ->
      ZapLogLevelFromString tbl s = (lvl, None) /\
      forall s', isCasingOf name s' = true ->
                 ZapLogLevelFromString tbl s' = ZapLogLevelFromString tbl s) /\
  (isASCII s = true -> isSeverityName s = false ->
   ZapLogLevelFromString tbl s = (-1, Some ("unknown log level: " ++ s))) /\
  (recognized tbl s = false ->
   ZapLogLevelFromString tbl s = (-1, Some ("unknown log level: " ++ s))).
Proof.
  split; [|split].
  - intros name lvl Hin Hcase.
    rewrite (mapper_on_casing tbl s name lvl Hin Hcase).
    split; [reflexivity|].
    intros s' Hcase'. apply (mapper_on_casing tbl s' name lvl Hin Hcase').
  - apply mapper_ascii_other.
  - apply mapper_unrecognized.
Qed.

Lemma C2_mapper_cases_witness :
  ZapLogLevelFromString CaseRanges_Latin "wArNiNg" = (Zap.WarnLevel, None) /\
  ZapLogLevelFromString CaseRanges_Latin "WARNING"
  = ZapLogLevelFromString CaseRanges_Latin "wArNiNg" /\
  ZapLogLevelFromString CaseRanges_Latin "warn"
  = (-1, Some "unknown log level: warn") /\
  ZapLogLevelFromString CaseRanges_Latin (ofBytes [195; 169])
  = (-1, Some ("unknown log level: " ++ ofBytes [195; 169])).
Proof.
  destruct (C2_mapper_cases CaseRanges_Latin "wArNiNg") as (Hname & _ & _).
  destruct (Hname "WARNING" Zap.WarnLevel) as [Hlvl Hsame];
    [cbn; tauto | reflexivity |].
  split; [exact Hlvl|]. split; [apply Hsame; reflexivity|]. split.
  - destruct (C2_mapper_cases CaseRanges_Latin "warn") as (_ & Hascii & _).
    apply Hascii; reflexivity.
  - destruct (C2_mapper_cases CaseRanges_Latin (ofBytes [195; 169])) as (_ & _ & Hun).
    apply Hun. reflexivity.
Defined.

(** The dotless i is accepted under every case table in which the range
    of U+0131 comes after ranges that end below it, as in
    [unicode.CaseRanges]. *)
Lemma toUpperCase_skip (r : Z) (pre rest : list CaseRange) :
  Forall (fun cr => Hi cr < r) pre ->
  toUpperCase r (pre ++ rest)%list = toUpperCase r rest.
Proof.
  induction 1 as [|cr pre Hcr _ IH]; cbn; [reflexivity|].
  destruct (Lo cr <=? r) eqn:Hlo; cbn [andb]; [|exact IH].
  destruct (r <=? Hi cr) eqn:Hhi; [lia | exact IH].
Qed.

Lemma dotless_i_accepted_by_sorted_table (pre rest : list CaseRange) :
  Forall (fun cr => Hi cr < 305) pre ->
  ZapLogLevelFromString (pre ++ mkCaseRange 305 305 (-232) 0 (-232) :: rest)%list
    dotlessInfo
  = (Zap.InfoLevel, None).
Proof.
  intros Hpre. apply mapper_on_upper with (name := "INFO"); [cbn; tauto|].
  unfold ToUpper.
  change (isASCII dotlessInfo) with false. cbv iota.
  unfold Map.
  change (runes (List.length (bytesOf dotlessInfo)) (bytesOf dotlessInfo))
    with [305; 110; 102; 111].
  cbn [flat_map].
  change (unicode_ToUpper _ 110) with 78.
  change (unicode_ToUpper _ 102) with 70.
  change (unicode_ToUpper _ 111) with 79.
  unfold unicode_ToUpper at 1 2.
  change (305 <=? MaxASCII) with false. cbv iota.
  rewrite toUpperCase_skip by exact Hpre.
  reflexivity.
Qed.

(** C4, as stated, fails: the level of FATAL is 5 and the level of PANIC
    is 4, so the last inequality of the chain does not hold. *)
Lemma C4_fatal_above_panic :
  levelOf CaseRanges_Latin "FATAL" = 5 /\
  levelOf CaseRanges_Latin "PANIC" = 4 /\
  ~ (levelOf CaseRanges_Latin "DEBUG" < levelOf CaseRanges_Latin "INFO" /\
     levelOf CaseRanges_Latin "INFO" < levelOf CaseRanges_Latin "WARNING" /\
     levelOf CaseRanges_Latin "WARNING" < levelOf CaseRanges_Latin "ERROR" /\
     levelOf CaseRanges_Latin "ERROR" < levelOf CaseRanges_Latin "FATAL" /\
     levelOf CaseRanges_Latin "FATAL" < levelOf CaseRanges_Latin "PANIC").
Proof.
  split; [reflexivity|]. split; [reflexivity|].
  intros (_ & _ & _ & _ & H). vm_compute in H. discriminate H.
Qed.

(** C4, amended.  The levels the mapper returns are -1, 0, 1, 2, 4 and
    5 for DEBUG, INFO, WARNING, ERROR, PANIC and FATAL: strictly
    increasing in this order, in which PANIC is below FATAL. *)
Theorem C4_levels_increasing (tbl : list CaseRange) :
  List.map (levelOf tbl) ["DEBUG"; "INFO"; "WARNING"; "ERROR"; "PANIC"; "FATAL"]
  = [-1; 0; 1; 2; 4; 5] /\
  levelOf tbl "DEBUG" < levelOf tbl "INFO" /\
  levelOf tbl "INFO" < levelOf tbl "WARNING" /\
  levelOf tbl "WARNING" < levelOf tbl "ERROR" /\
  levelOf tbl "ERROR" < levelOf tbl "PANIC" /\
  levelOf tbl "PANIC" < levelOf tbl "FATAL".
Proof. repeat split. Qed.

(** C10.  An input that reaches the [default] case is answered with the
    level -1 next to the error, and -1 is [DebugLevel], the level the
    mapper returns for DEBUG: a caller that drops the error holds the
    DEBUG severity. *)
Theorem C10_default_level_is_debug (tbl : list CaseRange) (s : string) :
  recognized tbl s = false ->
  ZapLogLevelFromString tbl s = (-1, Some ("unknown log level: " ++ s)) /\
  fst (ZapLogLevelFromString tbl s) = Zap.DebugLevel /\
  fst (ZapLogLevelFromString tbl s) = fst (ZapLogLevelFromString tbl "DEBUG").
Proof.
  intros Hr. rewrite (mapper_unrecognized tbl s Hr). repeat split.
Qed.

Lemma C10_default_level_is_debug_witness :
  ZapLogLevelFromString CaseRanges_Latin "verbose"
  = (-1, Some "unknown log level: verbose") /\
  fst (ZapLogLevelFromString CaseRanges_Latin "verbose") = Zap.DebugLevel /\
  fst (ZapLogLevelFromString CaseRanges_Latin "verbose")
  = fst (ZapLogLevelFromString CaseRanges_Latin "DEBUG").
Proof.
  apply (C10_default_level_is_debug CaseRanges_Latin "verbose"). reflexivity.
Defined.

(** The error is returned for the unrecognized inputs and for no other. *)
Lemma mapper_error_iff (tbl : list CaseRange) (s : string) :
  snd (ZapLogLevelFromString tbl s) <> None <-> recognized tbl s = false.
Proof.
  split.
  - intros Herr. destruct (recognized tbl s) eqn:Hr; [|reflexivity].
    exfalso. apply Herr. unfold recognized in Hr.
    apply existsb_exists in Hr. destruct Hr as ([name lvl] & Hin & Heq).
    apply String.eqb_eq in Heq. cbn [fst] in Heq.
    rewrite (mapper_on_upper tbl s name lvl Hin Heq). reflexivity.
  - intros Hr. rewrite (mapper_unrecognized tbl s Hr). discriminate.
Qed.

(** * Further properties *)

(** ** The severity mapper on ASCII input *)

Lemma casing_length (name s : string) :
  isCasingOf name s = true -> String.length s = String.length name.
Proof.
  revert s. induction name as [|d name IH]; intros [|c s] H; cbn in *;
    try discriminate; [reflexivity|].
  apply andb_true_iff in H. destruct H as [_ H]. rewrite (IH s H). reflexivity.
Qed.

(** X1.  An ASCII string whose length is not 4, 5 or 7 bytes, the empty string
    among them, is answered with level -1 and the error. *)
Theorem mapper_rejects_other_lengths (tbl : list CaseRange) (s : string) :
  isASCII s = true ->
  String.length s <> 4%nat -> String.length s <> 5%nat -> String.length s <> 7%nat ->
  ZapLogLevelFromString tbl s = (-1, Some ("unknown log level: " ++ s)).
Proof.
  intros Ha H4 H5 H7. apply mapper_ascii_other; [exact Ha|].
  destruct (isSeverityName s) eqn:Hn; [exfalso|reflexivity].
  unfold isSeverityName in Hn. apply existsb_exists in Hn.
  destruct Hn as ([name lvl] & Hin & Hcase). cbn [fst] in Hcase.
  apply casing_length in Hcase. cbn in Hin.
  repeat (destruct Hin as [Hin|Hin];
          [inversion Hin; subst name; cbn in Hcase; congruence|]).
  destruct Hin.
Qed.

Lemma mapper_rejects_other_lengths_witness :
  ZapLogLevelFromString CaseRanges_Latin "" = (-1, Some "unknown log level: ") /\
  ZapLogLevelFromString CaseRanges_Latin "warn!!"
  = (-1, Some "unknown log level: warn!!").
Proof.
  split.
  - apply (mapper_rejects_other_lengths CaseRanges_Latin "");
      [reflexivity | discriminate | discriminate | discriminate].
  - apply (mapper_rejects_other_lengths CaseRanges_Latin "warn!!");
      [reflexivity | discriminate | discriminate | discriminate].
Defined.

Lemma sameByteFold_upper (b1 b2 : Z) :
  sameByteFold b1 b2 = true -> upperByte b1 = upperByte b2.
Proof.
  unfold sameByteFold, isLowerByte, upperByte. intros H.
  destruct ((97 <=? b1) && (b1 <=? 122)) eqn:H1,
           ((97 <=? b2) && (b2 <=? 122)) eqn:H2; cbn in H; lia.
Qed.

Lemma equalFold_upper (s1 s2 : string) :
  equalFold s1 s2 = true ->
  List.map upperByte (bytesOf s1) = List.map upperByte (bytesOf s2).
Proof.
  revert s2. induction s1 as [|c1 s1 IH]; intros [|c2 s2] H; cbn in *;
    try discriminate; [reflexivity|].
  apply andb_true_iff in H. destruct H as [Hb Hr].
  rewrite (sameByteFold_upper _ _ Hb), (IH s2 Hr). reflexivity.
Qed.

Lemma mapper_level_of_upper (tbl : list CaseRange) (s1 s2 : string) :
  ToUpper tbl s1 = ToUpper tbl s2 ->
  levelOf tbl s1 = levelOf tbl s2 /\ recognized tbl s1 = recognized tbl s2.
Proof.
  intros Hu. unfold levelOf, recognized, ZapLogLevelFromString. rewrite Hu.
  split; [|reflexivity].
  repeat match goal with
         | |- context [String.eqb ?a ?b] => destruct (String.eqb a b); [reflexivity|]
         end.
  reflexivity.
Qed.

Lemma recognized_name (tbl : list CaseRange) (s : string) :
  recognized tbl s = true ->
  exists lvl, In (ToUpper tbl s, lvl) severityNames /\
              ZapLogLevelFromString tbl s = (lvl, None).
Proof.
  intros Hr. unfold recognized in Hr. apply existsb_exists in Hr.
  destruct Hr as ([name lvl] & Hin & Heq). cbn [fst] in Heq.
  apply String.eqb_eq in Heq. exists lvl. split.
  - rewrite Heq. exact Hin.
  - apply (mapper_on_upper tbl s name lvl Hin Heq).
Qed.

(** X2.  The mapper is case-insensitive on all ASCII input, accepted or
    not: of two ASCII strings that differ in the case of letters only,
    either both are returned the same level and no error, or both are
    returned -1 and the error, each error carrying its own string. *)
Theorem mapper_case_insensitive (tbl : list CaseRange) (s1 s2 : string) :
  isASCII s1 = true -> isASCII s2 = true -> equalFold s1 s2 = true ->
  (exists lvl, ZapLogLevelFromString tbl s1 = (lvl, None) /\
               ZapLogLevelFromString tbl s2 = (lvl, None)) \/
  (ZapLogLevelFromString tbl s1 = (-1, Some ("unknown log level: " ++ s1)) /\
   ZapLogLevelFromString tbl s2 = (-1, Some ("unknown log level: " ++ s2))).
Proof.
  intros H1 H2 Hf.
  assert (Hu : ToUpper tbl s1 = ToUpper tbl s2).
  { rewrite !ToUpper_ascii by assumption.
    rewrite (equalFold_upper s1 s2 Hf). reflexivity. }
  destruct (mapper_level_of_upper tbl s1 s2 Hu) as [_ Hrec].
  destruct (recognized tbl s1) eqn:Hr1.
  - left. destruct (recognized_name tbl s1 Hr1) as (lvl & Hin & E1).
    exists lvl. split; [exact E1|].
    apply (mapper_on_upper tbl s2 (ToUpper tbl s1) lvl Hin). symmetry. exact Hu.
  - right. split; apply mapper_unrecognized; [exact Hr1 | rewrite <- Hrec; reflexivity].
Qed.

Lemma mapper_case_insensitive_witness :
  ((exists lvl, ZapLogLevelFromString CaseRanges_Latin "Fatal" = (lvl, None) /\
                ZapLogLevelFromString CaseRanges_Latin "fATAL" = (lvl, None)) \/
   (ZapLogLevelFromString CaseRanges_Latin "Fatal"
    = (-1, Some "unknown log level: Fatal") /\
    ZapLogLevelFromString CaseRanges_Latin "fATAL"
    = (-1, Some "unknown log level: fATAL"))) /\
  ((exists lvl, ZapLogLevelFromString CaseRanges_Latin "Trace-1" = (lvl, None) /\
                ZapLogLevelFromString CaseRanges_Latin "tRACE-1" = (lvl, None)) \/
   (ZapLogLevelFromString CaseRanges_Latin "Trace-1"
    = (-1, Some "unknown log level: Trace-1") /\
    ZapLogLevelFromString CaseRanges_Latin "tRACE-1"
    = (-1, Some "unknown log level: tRACE-1"))).
Proof.
  split.
  - apply (mapper_case_insensitive CaseRanges_Latin "Fatal" "fATAL"); reflexivity.
  - apply (mapper_case_insensitive CaseRanges_Latin "Trace-1" "tRACE-1"); reflexivity.
Defined.

(** On ASCII input the answer does not depend on the Unicode case table. *)
Lemma mapper_ascii_any_table (tbl tbl' : list CaseRange) (s : string) :
  isASCII s = true -> ZapLogLevelFromString tbl s = ZapLogLevelFromString tbl' s.
Proof.
  intros Ha. unfold ZapLogLevelFromString.
  rewrite (ToUpper_ascii tbl s Ha), (ToUpper_ascii tbl' s Ha). reflexivity.
Qed.

(** ** The levels the mapper returns *)

(** X3.  Accepted inputs get the same level only when they upper-case to the
    same name: the level tells the six names apart. *)
Theorem mapper_level_determines_name (tbl : list CaseRange) (s1 s2 : string) :
  recognized tbl s1 = true -> recognized tbl s2 = true ->
  levelOf tbl s1 = levelOf tbl s2 ->
  ToUpper tbl s1 = ToUpper tbl s2.
Proof.
  intros H1 H2 Hl. unfold levelOf in Hl.
  destruct (recognized_name tbl s1 H1) as (l1 & Hin1 & E1).
  destruct (recognized_name tbl s2 H2) as (l2 & Hin2 & E2).
  rewrite E1, E2 in Hl. cbn [fst] in Hl. subst l2.
  revert Hin1 Hin2. generalize (ToUpper tbl s1) (ToUpper tbl s2).
  intros n1 n2 Hin1 Hin2. cbn in Hin1, Hin2.
  repeat (destruct Hin1 as [Hin1|Hin1]; [inversion Hin1; subst n1 l1; clear Hin1|]);
    try (destruct Hin1);
    repeat (destruct Hin2 as [Hin2|Hin2];
            [inversion Hin2; try reflexivity; try discriminate|]);
    destruct Hin2.
Qed.

Lemma mapper_level_determines_name_witness :
  ToUpper CaseRanges_Latin "panic" = ToUpper CaseRanges_Latin "Panic".
Proof.
  apply (mapper_level_determines_name CaseRanges_Latin "panic" "Panic"); reflexivity.
Defined.

(** X4.  The mapper returns one of -1, 0, 1, 2, 4 and 5 for every input and
    every case table: never [DPanicLevel], and nothing outside
    [DebugLevel .. FatalLevel]. *)
Theorem mapper_level_range (tbl : list CaseRange) (s : string) :
  In (levelOf tbl s) [-1; 0; 1; 2; 4; 5] /\
  levelOf tbl s <> Zap.DPanicLevel /\
  Zap.DebugLevel <= levelOf tbl s <= Zap.FatalLevel.
Proof.
  assert (Hin : In (levelOf tbl s) [-1; 0; 1; 2; 4; 5]).
  { unfold levelOf. destruct (recognized tbl s) eqn:Hr.
    - destruct (recognized_name tbl s Hr) as (lvl & Hin & ->). cbn [fst].
      cbn in Hin.
      repeat (destruct Hin as [Hin|Hin]; [inversion Hin; cbn; tauto|]).
      destruct Hin.
    - rewrite (mapper_unrecognized tbl s Hr). cbn. tauto. }
  split; [exact Hin|].
  unfold Zap.DPanicLevel, Zap.DebugLevel, Zap.FatalLevel. cbn in Hin.
  repeat (destruct Hin as [Hin|Hin]; [rewrite <- Hin; split; lia|]).
  destruct Hin.
Qed.

(** X5.  A caller that drops the error of the mapper and configures the
    logger with the level returned gets a logger that admits every level
    from [DebugLevel] upward: a record of such a level is handed to every
    sink of the logger.  What the destination of a sink does with the
    bytes is not stated. *)
Theorem dropped_error_logs_debug (tbl : list CaseRange) (s : string) (os : OS)
    (pretty debug file : bool) (name : string) (size : Z)
    (now : Time) (lvl : Zap.Level) (msg : string) (fields : list Zap.Field) :
  recognized tbl s = false -> Zap.DebugLevel <= lvl ->
  List.map Zap.writtenTo
    (Zap.Log (New os (mkParams pretty debug (levelOf tbl s) file name size))
       now lvl msg fields)
  = Zap.Stdout
    :: (if file then [Zap.RotatingFile (Lumberjack.mkLogger name size false)] else []).
Proof.
  intros Hr Hl. unfold levelOf. rewrite (mapper_unrecognized tbl s Hr). cbn [fst].
  rewrite Log_New, New_core. cbn [Level PrettyLogging EnableFileLogging LogFileName MaxSize].
  unfold Zap.DebugLevel in Hl.
  destruct (-1 <=? lvl) eqn:Hle; [|lia].
  destruct file; reflexivity.
Qed.

Lemma dropped_error_logs_debug_witness :
  List.map Zap.writtenTo
    (Zap.Log (New writableHost
                (mkParams true false (levelOf CaseRanges_Latin "verbose") false "" 0))
       afternoon Zap.DebugLevel "cache miss" [])
  = [Zap.Stdout].
Proof.
  apply (dropped_error_logs_debug CaseRanges_Latin "verbose" writableHost
           true false false "" 0 afternoon Zap.DebugLevel "cache miss" []).
  - reflexivity.
  - vm_compute. discriminate.
Defined.

(** ** Level filter and destinations *)

(** X6.  A record below the configured level is handed to no sink; a
    record at or above it is handed once to each sink, the console sink
    first, with its level and message.  What the destination of a sink
    does with the bytes is not stated. *)
Theorem New_level_filter (os : OS) (p : Params) (now : Time) (lvl : Zap.Level)
    (msg : string) (fields : list Zap.Field) :
  (lvl < Level p -> Zap.Log (New os p) now lvl msg fields = []) /\
  (Level p <= lvl ->
   List.map (fun w => (Zap.writtenTo w, Zap.writtenLevel w, Zap.writtenMessage w))
     (Zap.Log (New os p) now lvl msg fields)
   = (Zap.Stdout, lvl, msg)
     :: (if EnableFileLogging p
         then [(Zap.RotatingFile
                  (Lumberjack.mkLogger (LogFileName p) (MaxSize p) false), lvl, msg)]
         else [])).
Proof.
  rewrite Log_New, New_core. split; intros Hl.
  - destruct (Level p <=? lvl) eqn:Hle; [lia|reflexivity].
  - apply Z.leb_le in Hl. rewrite Hl.
    destruct (EnableFileLogging p); reflexivity.
Qed.

Lemma New_level_filter_witness :
  Zap.Log (New writableHost fileParams) afternoon Zap.DebugLevel "probe" [] = [] /\
  List.map (fun w => (Zap.writtenTo w, Zap.writtenLevel w, Zap.writtenMessage w))
    (Zap.Log (New writableHost fileParams) afternoon Zap.WarnLevel "slow" [])
  = [(Zap.Stdout, Zap.WarnLevel, "slow");
     (Zap.RotatingFile (Lumberjack.mkLogger "/var/log/router/router.log" 100 false),
      Zap.WarnLevel, "slow")].
Proof.
  split.
  - apply (New_level_filter writableHost fileParams afternoon Zap.DebugLevel "probe" []).
    reflexivity.
  - apply (New_level_filter writableHost fileParams afternoon Zap.WarnLevel "slow" []).
    vm_compute. discriminate.
Defined.

(** ** The encoders of the sinks *)

Lemma New_sink_encoders (os : OS) (p : Params) (s : Zap.Sink) :
  In s (Zap.sinks (Zap.core (New os p))) ->
  Zap.sinkEncoder s = zapConsoleEncoder \/ Zap.sinkEncoder s = ZapJsonEncoder.
Proof.
  rewrite New_core. intros Hin. apply in_map_iff in Hin.
  destruct Hin as (s0 & <- & Hin). cbn [Zap.sinkEncoder].
  destruct Hin as [<-|Hin].
  - cbn [Zap.sinkEncoder]. destruct (PrettyLogging p); [left|right]; reflexivity.
  - destruct (EnableFileLogging p); [|destruct Hin].
    destruct Hin as [<-|[]]. right. reflexivity.
Qed.

Lemma consoleEncoder_timeElement (t : Time) :
  Zap.timeElement zapConsoleEncoder t
  = if IsZero t then None
    else Some (Zap.Bare (Zap.AppendString (dayHourReading t))).
Proof.
  unfold Zap.timeElement. rewrite consoleEncoder_timeField.
  destruct (IsZero t); [reflexivity|].
  unfold Zap.TimeEncoderOfLayout. rewrite Format_console_layout. reflexivity.
Qed.

Lemma jsonEncoder_timeElement (t : Time) :
  Zap.timeElement ZapJsonEncoder t
  = if IsZero t then None else Some (Zap.Keyed "time" (millisEncodeTime t)).
Proof.
  unfold Zap.timeElement. rewrite jsonEncoder_timeField.
  destruct (IsZero t); reflexivity.
Qed.

(** X7.  The time in the records of every configuration, at any time but
    the zero time, which both encoders leave out: a sink with the
    structured encoder gets a field of key ["time"] holding the integer
    of the millisecond encoder; a sink with the console encoder gets the
    text of the local clock as an element without a key. *)
Theorem New_time_element (os : OS) (p : Params) (now : Time) (lvl : Zap.Level)
    (msg : string) (fields : list Zap.Field) :
  Forall (fun w =>
            Zap.writtenTime w
            = if IsZero now then None
              else Some (if Zap.isJSON (Zap.writtenBy w)
                         then Zap.Keyed "time" (millisEncodeTime now)
                         else Zap.Bare (Zap.AppendString (dayHourReading now))))
         (Zap.Log (New os p) now lvl msg fields).
Proof.
  rewrite Log_New. destruct (Level p <=? lvl); [|constructor].
  apply Forall_forall. intros w Hw. apply in_map_iff in Hw.
  destruct Hw as (s & <- & Hs). cbn [Zap.writtenTime Zap.writtenBy].
  destruct (New_sink_encoders os p s Hs) as [-> | ->].
  - rewrite consoleEncoder_timeElement. destruct (IsZero now); reflexivity.
  - rewrite jsonEncoder_timeElement. destruct (IsZero now); reflexivity.
Qed.

(** X8.  Both encoders keep the keys of the production configuration for the
    message, the level, the caller and the stack trace, encode durations
    in seconds and name the time ["time"]; the console encoder differs by
    its separator, a single space where the structured encoder has none,
    and by its coloured capital level. *)
Theorem New_encoder_configuration (os : OS) (p : Params) :
  Forall (fun s =>
            let cfg := Zap.configOf (Zap.sinkEncoder s) in
            Zap.TimeKey cfg = "time" /\ Zap.MessageKey cfg = "msg" /\
            Zap.LevelKey cfg = "level" /\ Zap.CallerKey cfg = "caller" /\
            Zap.StacktraceKey cfg = "stacktrace" /\
            Zap.EncodeDuration cfg = Zap.SecondsDurationEncoder /\
            Zap.EncodeLevel cfg
            = (if Zap.isJSON (Zap.sinkEncoder s) then Zap.LowercaseLevelEncoder
               else Zap.CapitalColorLevelEncoder) /\
            Zap.ConsoleSeparator cfg
            = (if Zap.isJSON (Zap.sinkEncoder s) then "" else " "))
         (Zap.sinks (Zap.core (New os p))).
Proof.
  apply Forall_forall. intros s Hs.
  destruct (New_sink_encoders os p s Hs) as [-> | ->]; cbv zeta;
    repeat split.
Qed.

(** ** Base fields on any core *)

Lemma sinks_Core_With (fields : list Zap.Field) (c : Zap.Core) :
  Zap.sinks (Zap.Core_With c fields) = List.map (withContext fields) (Zap.sinks c).
Proof.
  induction c as [| s | cs IH] using Core_nested_ind; [reflexivity | reflexivity |].
  cbn [Zap.Core_With Zap.sinks].
  induction IH as [|c cs Hc _ IHcs]; [reflexivity|].
  cbn [List.map flat_map]. rewrite Hc, IHcs, map_app. reflexivity.
Qed.

(** X9.  [newZapLogger] on any core, a tee of tees included: the logger
    writes to the sinks of the core, in their order, with their levels,
    encoders and destinations; without the pretty flag each sink has the
    host name and process id fields after the fields it already had, with
    the flag its fields are untouched.  The caller annotation follows the
    debug flag and the stack trace starts at [ErrorLevel]. *)
Theorem newZapLogger_any_core (os : OS) (c : Zap.Core) (prettyLogging debug : bool) :
  let logger := newZapLogger os c prettyLogging debug in
  Zap.sinks (Zap.core logger)
  = List.map (withContext (if prettyLogging then [] else baseFields os)) (Zap.sinks c) /\
  Zap.addCaller logger = debug /\
  Zap.addStack logger = Zap.ErrorLevel.
Proof.
  cbv zeta. unfold newZapLogger.
  destruct prettyLogging; cbn [negb].
  - destruct debug; cbn; repeat split;
      (rewrite <- (map_id (Zap.sinks c)) at 1; apply map_ext;
       intros [l e ctx o]; unfold withContext; cbn; rewrite app_nil_r; reflexivity).
  - unfold attachBaseFields, baseFields, hostOrUnknown.
    destruct (Hostname os) as [host [e|]]; destruct debug; cbn;
      repeat split; apply sinks_Core_With.
Qed.

Lemma newZapLogger_nested_example :
  List.map (fun s => (Zap.sinkLevel s, List.map Zap.Key (Zap.sinkContext s)))
    (Zap.sinks (Zap.core (newZapLogger namelessHost nestedTee false true)))
  = [(Zap.InfoLevel, ["hostname"; "pid"]); (Zap.ErrorLevel, ["hostname"; "pid"])].
Proof. reflexivity. Qed.

(** ** The request identifier in a record *)

(** X10.  A record logged with [WithRequestID id] as its only field has the
    keys hostname, pid, reqId (reqId alone with the pretty flag), each
    once, and its last field holds [id]. *)
Theorem request_id_in_record (os : OS) (p : Params) (now : Time) (lvl : Zap.Level)
    (msg id : string) :
  Forall (fun w =>
            List.map Zap.Key (Zap.writtenFields w)
            = (if PrettyLogging p then ["reqId"] else ["hostname"; "pid"; "reqId"]) /\
            NoDup (List.map Zap.Key (Zap.writtenFields w)) /\
            List.last (Zap.writtenFields w) (Zap.Int "" 0) = Zap.String "reqId" id)
         (Zap.Log (New os p) now lvl msg [WithRequestID id]).
Proof.
  rewrite Log_New. destruct (Level p <=? lvl); [|constructor].
  apply Forall_forall. intros w Hw. apply in_map_iff in Hw.
  destruct Hw as (s & <- & _). cbn [Zap.writtenFields].
  destruct (PrettyLogging p); cbn.
  - repeat split. repeat constructor; cbn; intuition discriminate.
  - repeat split. repeat constructor; cbn; intuition discriminate.
Qed.

(** ** Reading the console time stamp back *)

Lemma digit_inj (a b : Z) :
  0 <= a <= 9 -> 0 <= b <= 9 -> digit a = digit b -> a = b.
Proof.
  intros Ha Hb H. unfold digit in H.
  apply (f_equal N_of_ascii) in H.
  rewrite !N_ascii_embedding in H by lia. lia.
Qed.

Lemma twoDigits_inj (x y : Z) :
  0 <= x <= 99 -> 0 <= y <= 99 -> twoDigits x = twoDigits y -> x = y.
Proof.
  intros Hx Hy H. unfold twoDigits in H. injection H as Hhi Hlo.
  apply digit_inj in Hhi; [|Z.div_mod_to_equations; lia ..].
  apply digit_inj in Hlo; [|Z.div_mod_to_equations; lia ..].
  Z.div_mod_to_equations. lia.
Qed.

(** X11.  The console time stamp determines the local time of day to the
    second: two times with the same text have the same hour, minute and
    second in their locations. *)
Theorem console_time_determines_clock (t1 t2 : Time) :
  Zap.timeField zapConsoleEncoder t1 = Zap.timeField zapConsoleEncoder t2 ->
  Hour t1 = Hour t2 /\ Minute t1 = Minute t2 /\ Sec t1 = Sec t2 /\
  secondsOfDay t1 = secondsOfDay t2.
Proof.
  rewrite !consoleEncoder_timeField. unfold Zap.TimeEncoderOfLayout.
  rewrite !Format_console_layout. intros H.
  injection H as Hh1 Hh2 Hm1 Hm2 Hs1 Hs2 _.
  destruct (clock_bounds t1) as (B1 & B2 & B3).
  destruct (clock_bounds t2) as (B1' & B2' & B3').
  assert (Hh : Hour t1 = Hour t2).
  { apply twoDigits_inj; [lia | lia |]. unfold twoDigits. congruence. }
  assert (Hm : Minute t1 = Minute t2).
  { apply twoDigits_inj; [lia | lia |]. unfold twoDigits. congruence. }
  assert (Hs : Sec t1 = Sec t2).
  { apply twoDigits_inj; [lia | lia |]. unfold twoDigits. congruence. }
  repeat split; try assumption.
  unfold Hour, Minute, Sec in Hh, Hm, Hs.
  pose proof (Z.mod_pos_bound (unixSec t1 + zoneOffset t1) 86400 ltac:(lia)) as D1.
  pose proof (Z.mod_pos_bound (unixSec t2 + zoneOffset t2) 86400 ltac:(lia)) as D2.
  unfold secondsOfDay in *.
  set (d1 := (unixSec t1 + zoneOffset t1) mod 86400) in *.
  set (d2 := (unixSec t2 + zoneOffset t2) mod 86400) in *.
  clearbody d1 d2. clear - Hh Hm Hs D1 D2.
  Z.div_mod_to_equations. lia.
Qed.

Lemma console_time_determines_clock_witness :
  Hour (mkTime 47109 5 0) = Hour (mkTime 43509 999 3600) /\
  Minute (mkTime 47109 5 0) = Minute (mkTime 43509 999 3600) /\
  Sec (mkTime 47109 5 0) = Sec (mkTime 43509 999 3600) /\
  secondsOfDay (mkTime 47109 5 0) = secondsOfDay (mkTime 43509 999 3600).
Proof.
  apply (console_time_determines_clock (mkTime 47109 5 0) (mkTime 43509 999 3600)).
  vm_compute. reflexivity.
Defined.

